(** * pynxm: the request pipeline of the Nexus API wrapper

    A shallow embedding of [pynxm.py]: the [Nexus] object, its dispatcher
    [_make_request] and the endpoint methods built on it.  Python exceptions
    are an explicit outcome, the attributes of [self] are threaded as state,
    and the calls into the [requests] library (sending a request, decoding a
    body) are recorded in the state so that "no network call" and "the body
    is not parsed" are statements about that record. *)

From Stdlib Require Import ZArith Ascii DecimalString.
From stdpp Require Import gmap strings list fin_maps.

Set Warnings "-register-all".
Local Open Scope Z_scope.

(** ** Python strings (byte strings; only ASCII case mapping is needed) *)

Module PyStr.

Definition upper_char (c : ascii) : ascii :=
  let n := nat_of_ascii c in
  if ((97 <=? n) && (n <=? 122))%nat then ascii_of_nat (n - 32) else c.

Definition lower_char (c : ascii) : ascii :=
  let n := nat_of_ascii c in
  if ((65 <=? n) && (n <=? 90))%nat then ascii_of_nat (n + 32) else c.

(** [s.upper()] and [s.lower()] *)
Fixpoint upper (s : string) : string :=
  match s with
  | EmptyString => EmptyString
  | String c t => String (upper_char c) (upper t)
  end.

Fixpoint lower (s : string) : string :=
  match s with
  | EmptyString => EmptyString
  | String c t => String (lower_char c) (lower t)
  end.

(** [s.startswith(p)] *)
Fixpoint startswith (p s : string) : bool :=
  match p, s with
  | EmptyString, _ => true
  | String a p', String b s' => if Ascii.eqb a b then startswith p' s' else false
  | String _ _, EmptyString => false
  end.

(** [needle in hay] on strings: [needle] occurs at some offset of [hay]. *)
Fixpoint contains (needle hay : string) : bool :=
  startswith needle hay ||
  match hay with
  | EmptyString => false
  | String _ t => contains needle t
  end.

(** [str(n)] for an [int] *)
Definition str_of_int (n : Z) : string := NilZero.string_of_int (Z.to_int n).

(** [sep.join(l)] *)
Fixpoint join (sep : string) (l : list string) : string :=
  match l with
  | [] => ""
  | [x] => x
  | x :: rest => x +:+ sep +:+ join sep rest
  end.

End PyStr.

(** ** Values decoded from a JSON body *)

(** What [response.json()] can return.  The dispatcher hands these values
    through untouched; the only operation it applies is a subscript by a
    string key.  A float is kept as the bit pattern of its double. *)
Inductive value : Type :=
  | VNone
  | VBool (b : bool)
  | VInt (n : Z)
  | VFloat (bits : Z)
  | VStr (s : string)
  | VList (l : list value)
  | VDict (d : gmap string value).

(** ** Exceptions *)

Inductive exn : Type :=
  | LimitReachedError (msg : string)    (* class LimitReachedError(Exception) *)
  | RequestError (msg : string)         (* class RequestError(Exception) *)
  | ValueError (msg : string)           (* builtin, raised by game_updated_list *)
  | KeyError (key : string)             (* builtin, d[key] with key missing *)
  | TypeError                           (* builtin, subscript of a non-mapping *)
  | JSONDecodeError                     (* raised by response.json() *)
  | RequestException (what : string).   (* raised by session.request *)

Inductive Outcome (A : Type) : Type :=
  | Return (a : A)
  | Raise (e : exn).
Arguments Return {A} a.
Arguments Raise {A} e.

(** The two exception classes the library itself declares. *)
Definition library_error (e : exn) : bool :=
  match e with
  | LimitReachedError _ | RequestError _ => true
  | _ => false
  end.

(** ** Requests and responses *)

(** A value placed in a query or a form mapping. *)
Inductive param : Type :=
  | PStr (s : string)
  | PBool (b : bool).

(** The arguments of one [session.request(...)] call.  [params] and [data]
    are dict literals of the source, kept in insertion order because that
    is the order in which they are encoded. *)
Record Request : Type := {
  method : string;
  url : string;
  params : list (string * param);
  data : list (string * param);
  headers : gmap string string;
  timeout : Z
}.

(** The parts of a [requests.Response] the dispatcher reads.  [r_headers]
    holds the items of [response.headers] under the names the server sent;
    [r_json] is what [response.json()] gives: the decoded body, or [None]
    when decoding raises. *)
Record Response : Type := {
  status_code : Z;
  reason : string;
  r_headers : gmap string string;
  r_json : option value
}.

(** ** What the [requests] library does with the arguments

    [session.request] merges the persistent session headers with the
    headers of the call and form-encodes the query and body mappings.  The
    test-suite observes the result ([request.url], [request.body],
    [request.headers]); the functions below model that preparation. *)

Module Wire.

Definition hex_digit (n : nat) : ascii :=
  nth n (String.list_ascii_of_string "0123456789ABCDEF") "0"%char.

(** Letters, digits and [_.-~] are never quoted. *)
Definition always_safe (c : ascii) : bool :=
  let n := nat_of_ascii c in
  (((48 <=? n) && (n <=? 57)) || ((65 <=? n) && (n <=? 90)) ||
   ((97 <=? n) && (n <=? 122)) ||
   (n =? 95) || (n =? 46) || (n =? 45) || (n =? 126))%nat.

Definition quote_byte (c : ascii) : string :=
  if always_safe c then String c ""
  else if Ascii.eqb c " " then "+"
  else let n := nat_of_ascii c in
       String "%" (String (hex_digit (n / 16)) (String (hex_digit (n mod 16)) "")).

(** [urllib.parse.quote_plus] *)
Fixpoint quote_plus (s : string) : string :=
  match s with
  | EmptyString => EmptyString
  | String c t => quote_byte c +:+ quote_plus t
  end.

(** [str(v)] of a query or form value *)
Definition str_of_param (v : param) : string :=
  match v with
  | PStr s => s
  | PBool true => "True"
  | PBool false => "False"
  end.

(** [urllib.parse.urlencode]: [k=v] pairs joined by [&], in order. *)
Definition urlencode (items : list (string * param)) : string :=
  PyStr.join "&"
    (map (λ kv, quote_plus kv.1 +:+ "=" +:+ quote_plus (str_of_param kv.2)) items).

(** Header names are case-insensitive: a header mapping is keyed by the
    lower-cased name, as [requests]' [CaseInsensitiveDict] is. *)
Definition ci_set (name v : string) (h : gmap string string) : gmap string string :=
  <[PyStr.lower name := v]> h.

Definition ci_get (h : gmap string string) (name : string) : option string :=
  h !! PyStr.lower name.

(** Headers of the call laid over the persistent ones. *)
Definition merge_headers (session call : gmap string string) : gmap string string :=
  map_fold ci_set session call.

(** What goes out for one [session.request] call.  [w_url] is the [url]
    argument, [w_query] the encoded [params] that are appended to it
    (nothing is appended when it is empty). *)
Record Prepared : Type := {
  w_method : string;
  w_url : string;
  w_query : string;
  w_headers : gmap string string;
  w_body : string;
  w_timeout : Z
}.

Definition prepare (session : gmap string string) (r : Request) : Prepared :=
  {| w_method := method r;
     w_url := url r;
     w_query := urlencode (params r);
     w_headers := merge_headers session (headers r);
     w_body := urlencode (data r);
     w_timeout := timeout r |}.

End Wire.

(** ** The environment of the library *)

(** Results of the [platform] module calls that make up the user agent. *)
Record Platform : Type := {
  platform_platform : string;
  platform_architecture : string;
  platform_python_implementation : string;
  platform_python_version : string
}.

(** Everything outside [pynxm.py] that the code calls into: the host
    platform, the default headers of a fresh [requests.Session()], Python's
    [repr] of a value, and the server reached through the transport, which
    answers a prepared request with a response or fails with an exception. *)
Record Environment : Type := {
  host : Platform;
  default_headers : gmap string string;
  repr : value → string;
  network : Wire.Prepared → Response + exn
}.

(** ** State and the exception/state monad *)

(** [session_headers] is [self.session.headers], [nexus_headers] is
    [self.nexus_headers].  [sent] lists the [session.request] calls made so
    far, oldest first, and [decoded] counts the [response.json()] calls. *)
Record State : Type := {
  session_headers : gmap string string;
  nexus_headers : gmap string string;
  sent : list Request;
  decoded : nat
}.

Definition M (A : Type) : Type := State → Outcome A * State.

#[global] Instance M_ret : MRet M := λ A a st, (Return a, st).

#[global] Instance M_bind : MBind M := λ A B f m st,
  match m st with
  | (Return a, st') => f a st'
  | (Raise e, st') => (Raise e, st')
  end.

Definition raise {A : Type} (e : exn) : M A := λ st, (Raise e, st).

(** [try: body except KeyError: handler] *)
Definition try_except_KeyError {A : Type} (body handler : M A) : M A := λ st,
  match body st with
  | (Raise (KeyError _), st') => handler st'
  | r => r
  end.

Definition set_nexus_headers (h : gmap string string) : M () := λ st,
  (Return (),
   {| session_headers := session_headers st; nexus_headers := h;
      sent := sent st; decoded := decoded st |}).

(** [v[key]] *)
Definition getitem (v : value) (key : string) : M value :=
  match v with
  | VDict d =>
      match d !! key with
      | Some x => mret x
      | None => raise (KeyError key)
      end
  | _ => raise TypeError
  end.

(** [response.json()] *)
Definition response_json (response : Response) : M value := λ st,
  let st' := {| session_headers := session_headers st;
                nexus_headers := nexus_headers st;
                sent := sent st; decoded := S (decoded st) |} in
  match r_json response with
  | Some v => (Return v, st')
  | None => (Raise JSONDecodeError, st')
  end.

(** ** The module [pynxm] *)

Definition __version__ : string := "0.1.0".
Definition BASE_URL : string := "https://api.nexusmods.com/v1/".

(** The text of the [LimitReachedError] raised on status 429. *)
Definition LIMIT_MESSAGE : string :=
  "You have reached your request limit. " +:+
  "Please wait one hour before trying again.".

(** ["Status Code {} - {}".format(status_code, what)] once [what] is a string *)
Definition status_message (status_code : Z) (what : string) : string :=
  "Status Code " +:+ PyStr.str_of_int status_code +:+ " - " +:+ what.

(** The categories argument of [mod_file_list]: a tuple or list of strings,
    a single string, or anything else ([None] by default). *)
Inductive Categories : Type :=
  | CatSeq (l : list string)
  | CatStr (s : string)
  | CatOther.

Section Nexus.

Context (env : Environment).

Definition USER_AGENT : string :=
  "pynxm/" +:+ __version__ +:+ " (" +:+ platform_platform (host env) +:+ "; " +:+
  platform_architecture (host env) +:+ ") " +:+
  platform_python_implementation (host env) +:+ "/" +:+
  platform_python_version (host env).

(** [str(v)], as [format] applies it to its arguments *)
Definition py_str (v : value) : string :=
  match v with
  | VStr s => s
  | VNone => "None"
  | VBool true => "True"
  | VBool false => "False"
  | VInt n => PyStr.str_of_int n
  | _ => repr env v
  end.

(** [Nexus.__init__]: a fresh session whose headers are updated with the
    identity headers, and an empty [nexus_headers]. *)
Definition __init__ (api_key : string) : State :=
  {| session_headers :=
       Wire.ci_set "content-type" "application/json"
         (Wire.ci_set "apikey" api_key
            (Wire.ci_set "user-agent" USER_AGENT (default_headers env)));
     nexus_headers := ∅;
     sent := [];
     decoded := 0%nat |}.

(** [self.session.request(...)] *)
Definition session_request (r : Request) : M Response := λ st,
  let st' := {| session_headers := session_headers st;
                nexus_headers := nexus_headers st;
                sent := sent st ++ [r]; decoded := decoded st |} in
  match network env (Wire.prepare (session_headers st) r) with
  | inl response => (Return response, st')
  | inr e => (Raise e, st')
  end.

Definition _make_request (operation endpoint : string)
    (payload data : option (list (string * param)))
    (headers : option (gmap string string)) : M value :=
  let payload := match payload with None => [] | Some p => p end in
  let data := match data with None => [] | Some d => d end in
  let headers := match headers with None => ∅ | Some h => h end in
  response ← session_request
    {| method := PyStr.upper operation;
       url := BASE_URL +:+ endpoint;
       params := payload;
       data := data;
       headers := headers;
       timeout := 30 |};
  let status_code := status_code response in
  set_nexus_headers
    (filter (λ kv, Is_true (PyStr.contains "X-" kv.1)) (r_headers response));;
  if negb ((status_code =? 200) || (status_code =? 201)) then
    if status_code =? 429 then
      raise (LimitReachedError LIMIT_MESSAGE)
    else if (status_code =? 503) || (status_code =? 504) then
      raise (RequestError (status_message status_code (reason response)))
    else
      msg ← try_except_KeyError
               (body ← response_json response; getitem body "message")
               (body ← response_json response; getitem body "error");
      raise (RequestError (status_message status_code (py_str msg)))
  else
    response_json response.

Definition colour_schemes_list : M value :=
  _make_request "get" "colourschemes.json" None None None.

Definition user_details : M value :=
  _make_request "get" "users/validate.json" None None None.

Definition user_tracked_list : M value :=
  _make_request "get" "user/tracked_mods.json" None None None.

Definition user_tracked_add (game mod_id : string) : M value :=
  _make_request "post" "user/tracked_mods.json"
    (Some [("domain_name", PStr game)])
    (Some [("mod_id", PStr mod_id)])
    (Some {[ "content-type" := "application/x-www-form-urlencoded" ]});;
  mret VNone.

Definition user_tracked_delete (game mod_id : string) : M value :=
  _make_request "delete" "user/tracked_mods.json"
    (Some [("domain_name", PStr game)])
    (Some [("mod_id", PStr mod_id)])
    (Some {[ "content-type" := "application/x-www-form-urlencoded" ]});;
  mret VNone.

Definition user_endorsements_list : M value :=
  _make_request "get" "user/endorsements.json" None None None.

Definition game_details (game : string) : M value :=
  _make_request "get" ("games/" +:+ game +:+ ".json") None None None.

Definition game_list (include_unapproved : bool) : M value :=
  _make_request "get" "games.json"
    (Some [("include_unapproved", PBool include_unapproved)]) None None.

Definition game_updated_list (game period : string) : M value :=
  if negb (bool_decide (period ∈ ["1d"; "1w"; "1m"])) then
    raise (ValueError "Allowed values for 'period' argument: '1d', '1w', '1m'.")
  else
    _make_request "get" ("games/" +:+ game +:+ "/mods/updated.json")
      (Some [("period", PStr period)]) None None.

Definition game_latest_added_list (game : string) : M value :=
  _make_request "get" ("games/" +:+ game +:+ "/mods/latest_added.json")
    None None None.

Definition game_latest_updated_list (game : string) : M value :=
  _make_request "get" ("games/" +:+ game +:+ "/mods/latest_updated.json")
    None None None.

Definition game_trending_list (game : string) : M value :=
  _make_request "get" ("games/" +:+ game +:+ "/mods/trending.json")
    None None None.

Definition mod_details (game mod_id : string) : M value :=
  _make_request "get" ("games/" +:+ game +:+ "/mods/" +:+ mod_id +:+ ".json")
    None None None.

Definition mod_search (game md5_hash : string) : M value :=
  _make_request "get"
    ("games/" +:+ game +:+ "/mods/md5_search/" +:+ md5_hash +:+ ".json")
    None None None.

Definition mod_endorse (game mod_id : string) : M value :=
  _make_request "post"
    ("games/" +:+ game +:+ "/mods/" +:+ mod_id +:+ "/endorse.json")
    None None None.

Definition mod_abstain (game mod_id : string) : M value :=
  _make_request "post"
    ("games/" +:+ game +:+ "/mods/" +:+ mod_id +:+ "/abstain.json")
    None None None.

Definition mod_file_list (game mod_id : string) (categories : Categories) : M value :=
  let payload :=
    match categories with
    | CatSeq l => Some [("category", PStr (PyStr.join "," l))]
    | CatStr s => Some [("category", PStr s)]
    | CatOther => None
    end in
  _make_request "get"
    ("games/" +:+ game +:+ "/mods/" +:+ mod_id +:+ "/files.json")
    payload None None.

Definition mod_file_details (game mod_id file_id : string) : M value :=
  _make_request "get"
    ("games/" +:+ game +:+ "/mods/" +:+ mod_id +:+ "/files/" +:+ file_id +:+ ".json")
    None None None.

Definition mod_file_download_link (game mod_id file_id : string)
    (nxm_key expires : option string) : M value :=
  let payload :=
    match nxm_key, expires with
    | Some k, Some e => Some [("key", PStr k); ("expires", PStr e)]
    | _, _ => None
    end in
  _make_request "get"
    ("games/" +:+ game +:+ "/mods/" +:+ mod_id +:+ "/files/" +:+ file_id +:+
     "/" +:+ "download_link.json")
    payload None None.

Definition mod_changelog_list (game mod_id : string) : M value :=
  _make_request "get"
    ("games/" +:+ game +:+ "/mods/" +:+ mod_id +:+ "/changelogs.json")
    None None None.

End Nexus.

(** ** The public endpoint methods as one datatype *)

(** One constructor per endpoint method of [Nexus], with its arguments. *)
Inductive Call : Type :=
  | ColourSchemesList
  | UserDetails
  | UserTrackedList
  | UserTrackedAdd (game mod_id : string)
  | UserTrackedDelete (game mod_id : string)
  | UserEndorsementsList
  | GameDetails (game : string)
  | GameList (include_unapproved : bool)
  | GameUpdatedList (game period : string)
  | GameLatestAddedList (game : string)
  | GameLatestUpdatedList (game : string)
  | GameTrendingList (game : string)
  | ModDetails (game mod_id : string)
  | ModSearch (game md5_hash : string)
  | ModEndorse (game mod_id : string)
  | ModAbstain (game mod_id : string)
  | ModFileList (game mod_id : string) (categories : Categories)
  | ModFileDetails (game mod_id file_id : string)
  | ModFileDownloadLink (game mod_id file_id : string) (nxm_key expires : option string)
  | ModChangelogList (game mod_id : string).

Definition invoke (env : Environment) (c : Call) : M value :=
  match c with
  | ColourSchemesList => colour_schemes_list env
  | UserDetails => user_details env
  | UserTrackedList => user_tracked_list env
  | UserTrackedAdd game mod_id => user_tracked_add env game mod_id
  | UserTrackedDelete game mod_id => user_tracked_delete env game mod_id
  | UserEndorsementsList => user_endorsements_list env
  | GameDetails game => game_details env game
  | GameList include_unapproved => game_list env include_unapproved
  | GameUpdatedList game period => game_updated_list env game period
  | GameLatestAddedList game => game_latest_added_list env game
  | GameLatestUpdatedList game => game_latest_updated_list env game
  | GameTrendingList game => game_trending_list env game
  | ModDetails game mod_id => mod_details env game mod_id
  | ModSearch game md5_hash => mod_search env game md5_hash
  | ModEndorse game mod_id => mod_endorse env game mod_id
  | ModAbstain game mod_id => mod_abstain env game mod_id
  | ModFileList game mod_id categories => mod_file_list env game mod_id categories
  | ModFileDetails game mod_id file_id => mod_file_details env game mod_id file_id
  | ModFileDownloadLink game mod_id file_id nxm_key expires =>
      mod_file_download_link env game mod_id file_id nxm_key expires
  | ModChangelogList game mod_id => mod_changelog_list env game mod_id
  end.

(** The two tracked-mods mutations. *)
Definition is_tracked_mutation (c : Call) : bool :=
  match c with
  | UserTrackedAdd _ _ | UserTrackedDelete _ _ => true
  | _ => false
  end.

(** The call passes the local argument check of its method (only
    [game_updated_list] has one). *)
Definition passes_validation (c : Call) : bool :=
  match c with
  | GameUpdatedList _ period => bool_decide (period ∈ ["1d"; "1w"; "1m"])
  | _ => true
  end.

(** ** A concrete environment, after the fixtures of [test_pynxm.py] *)

Module Fixture.

Definition TEST_JSON : value := VDict {[ "test" := VStr "content" ]}.

Definition response_headers : gmap string string :=
  {[ "Content-Type" := "application/json";
     "X-RL-Daily-Remaining" := "2499";
     "X-RL-Hourly-Limit" := "100";
     "x-lowercase" := "ignored" ]}.

Definition answer (code : Z) (why : string) (body : option value) : Response :=
  {| status_code := code; reason := why;
     r_headers := response_headers; r_json := body |}.

Definition error_body : gmap string value := {[ "error" := VStr "error message" ]}.
Definition message_body : gmap string value := {[ "message" := VStr "error message" ]}.
Definition bare_body : gmap string value := {[ "code" := VInt 7 ]}.

Definition not_found : Response := answer 404 "Not Found" (Some (VDict error_body)).
Definition unprocessable : Response :=
  answer 422 "Unprocessable Entity" (Some (VDict message_body)).
Definition too_many : Response := answer 429 "Too Many Requests" None.
Definition unavailable : Response := answer 503 "Service Unavailable" None.
Definition internal_error : Response :=
  answer 500 "Internal Server Error" (Some (VDict bare_body)).
Definition ok : Response := answer 200 "OK" (Some TEST_JSON).

(** The registered mock responses, by URL; any other URL answers 200 with
    [TEST_JSON], and one host is unreachable. *)
Definition server (p : Wire.Prepared) : Response + exn :=
  let u := Wire.w_url p in
  if String.eqb u (BASE_URL +:+ "test_endpoint1") then inl not_found
  else if String.eqb u (BASE_URL +:+ "test_endpoint2") then inl unprocessable
  else if String.eqb u (BASE_URL +:+ "test_endpoint3") then inl too_many
  else if String.eqb u (BASE_URL +:+ "test_endpoint4") then inl unavailable
  else if String.eqb u (BASE_URL +:+ "test_endpoint5") then inl internal_error
  else if String.eqb u (BASE_URL +:+ "test_endpoint6") then
    inr (RequestException "Connection refused")
  else inl ok.

Definition env : Environment :=
  {| host := {| platform_platform := "Linux-6.1-x86_64";
                platform_architecture := "64bit";
                platform_python_implementation := "CPython";
                platform_python_version := "3.11.4" |};
     default_headers := {[ "accept" := "*/*"; "connection" := "keep-alive" ]};
     repr := λ _, "<object>";
     network := server |}.

(** The same environment with a server that gives one answer to everything. *)
Definition answering (r : Response) : Environment :=
  {| host := host env; default_headers := default_headers env;
     repr := repr env; network := λ _, inl r |}.

(** [TEST_INSTANCE = pynxm.Nexus("test-key")] *)
Definition TEST_INSTANCE : State := __init__ env "test-key".

End Fixture.

(** ** Single sign-on: [Nexus.sso] *)

Module Sso.

(** The calls [Nexus.sso] makes to the outside, in the order made. *)
Inductive Event : Type :=
  | Connect (address : string)      (* create_connection(address) *)
  | Uuid4                           (* uuid.uuid4() *)
  | Send (frame : string)           (* ws.send(frame) *)
  | OpenBrowser (address : string)  (* webbrowser.open(address) *)
  | Recv.                           (* ws.recv() *)

(** What can go wrong outside: the socket library or the browser launcher
    raises. *)
Inductive Failure : Type :=
  | WebSocketException (what : string)
  | BrowserError (what : string).

(** The collaborators of the handshake: each call succeeds or raises.
    [uuid4] is the text of the identifier [uuid.uuid4()] would give,
    [dumps] is [json.dumps], [recv] the frame the socket delivers. *)
Record Services : Type := {
  create_connection : string → option Failure;
  uuid4 : string;
  dumps : value → string;
  send : string → option Failure;
  webbrowser_open : string → option Failure;
  recv : string + Failure
}.

(** A run of the handshake: a result or the exception that ended it, and
    the calls made, oldest first. *)
Definition Script (A : Type) : Type := list Event → (A + Failure) * list Event.

#[global] Instance Script_ret : MRet Script := λ A a log, (inl a, log).

#[global] Instance Script_bind : MBind Script := λ A B f m log,
  match m log with
  | (inl a, log') => f a log'
  | (inr e, log') => (inr e, log')
  end.

(** One outside call: it is recorded, then its result or exception counts. *)
Definition call {A : Type} (ev : Event) (result : A + Failure) : Script A :=
  λ log, (result, log ++ [ev]).

Definition unit_result (r : option Failure) : () + Failure :=
  match r with
  | None => inl ()
  | Some e => inr e
  end.

Definition SSO_SOCKET : string := "wss://sso.nexusmods.com".

(** ["https://www.nexusmods.com/" "sso?id={}&application={}".format(sso_id, app_slug)] *)
Definition confirmation_url (sso_id app_slug : string) : string :=
  "https://www.nexusmods.com/" +:+ "sso?id=" +:+ sso_id +:+
  "&application=" +:+ app_slug.

(** [{"id": sso_id, "token": sso_token}] *)
Definition handshake (sso_id sso_token : string) : value :=
  VDict {[ "id" := VStr sso_id; "token" := VStr sso_token ]}.

(** [Nexus.sso(app_slug, sso_token, sso_id=None)] *)
Definition sso (env : Environment) (sv : Services)
    (app_slug sso_token : string) (sso_id : option string) : Script State :=
  call (Connect SSO_SOCKET) (unit_result (create_connection sv SSO_SOCKET));;
  sso_id ← match sso_id with
           | None => call Uuid4 (inl (uuid4 sv))
           | Some given => mret given
           end;
  call (Send (dumps sv (handshake sso_id sso_token)))
       (unit_result (send sv (dumps sv (handshake sso_id sso_token))));;
  call (OpenBrowser (confirmation_url sso_id app_slug))
       (unit_result (webbrowser_open sv (confirmation_url sso_id app_slug)));;
  api_key ← call Recv (recv sv);
  mret (__init__ env api_key).

(** A string between double quotes, for the example encoder below. *)
Definition quoted (s : string) : string :=
  String (ascii_of_nat 34) s +:+ String (ascii_of_nat 34) "".

(** Collaborators for examples: everything works, the user approves, and
    the socket then delivers the key. *)
Definition friendly : Services :=
  {| create_connection := λ _, None;
     uuid4 := "0b1e9c3a-6f0d-4c55-9a57-3d2f8f0c7e11";
     dumps := λ v,
       match v with
       | VDict d =>
           match d !! "id", d !! "token" with
           | Some (VStr i), Some (VStr t) =>
               "{" +:+ quoted "id" +:+ ": " +:+ quoted i +:+ ", " +:+
               quoted "token" +:+ ": " +:+ quoted t +:+ "}"
           | _, _ => "{}"
           end
       | _ => "null"
       end;
     send := λ _, None;
     webbrowser_open := λ _, None;
     recv := inl "key-from-sso" |}.

(** The same with a socket that closes before a key arrives. *)
Definition hung_up : Services :=
  {| create_connection := create_connection friendly;
     uuid4 := uuid4 friendly;
     dumps := dumps friendly;
     send := send friendly;
     webbrowser_open := webbrowser_open friendly;
     recv := inr (WebSocketException "Connection is already closed.") |}.


End Sso.

(** ** More fixtures: malformed error bodies and changing headers *)

Module Cases.

(** A gateway error page: not JSON. *)
Definition bad_gateway : Response := Fixture.answer 502 "Bad Gateway" None.

(** An error body that is JSON but a list. *)
Definition listing : Response :=
  Fixture.answer 400 "Bad Request" (Some (VList [VStr "period is invalid"])).

(** A server whose rate-limit headers differ from one address to the next. *)
Definition metered (p : Wire.Prepared) : Response + exn :=
  if String.eqb (Wire.w_url p) (BASE_URL +:+ "colourschemes.json") then
    inl {| status_code := 200; reason := "OK";
           r_headers := {[ "X-RL-Daily-Remaining" := "2499"; "X-First" := "1" ]};
           r_json := Some Fixture.TEST_JSON |}
  else
    inl {| status_code := 429; reason := "Too Many Requests";
           r_headers := {[ "X-RL-Daily-Remaining" := "0" ]};
           r_json := None |}.

Definition metered_env : Environment :=
  {| host := host Fixture.env; default_headers := default_headers Fixture.env;
     repr := repr Fixture.env; network := metered |}.

Definition exhausted : Response :=
  {| status_code := 429; reason := "Too Many Requests";
     r_headers := {[ "X-RL-Daily-Remaining" := "0" ]};
     r_json := None |}.

End Cases.

(** ** Vocabulary of the statements *)

(** The [session.request] arguments that [_make_request] builds from its
    own: absent mappings count as empty ones. *)
Definition issued (operation endpoint : string)
    (payload data : option (list (string * param)))
    (headers : option (gmap string string)) : Request :=
  {| method := PyStr.upper operation;
     url := BASE_URL +:+ endpoint;
     params := default [] payload;
     data := default [] data;
     headers := default ∅ headers;
     timeout := 30 |}.

(** A status code outside 200, 201, 429, 503 and 504. *)
Definition other_status (code : Z) : Prop :=
  code ≠ 200 ∧ code ≠ 201 ∧ code ≠ 429 ∧ code ≠ 503 ∧ code ≠ 504.

(** * Properties *)

(** ** Checks against the assertions of [test_pynxm.py] *)

Example test_colour_schemes_list :
  (colour_schemes_list Fixture.env Fixture.TEST_INSTANCE).1 = Return Fixture.TEST_JSON.
Proof. vm_compute. reflexivity. Qed.

Example test_mod_file_list_query :
  Wire.urlencode [("category", PStr "main,update")] = "category=main%2Cupdate".
Proof. vm_compute. reflexivity. Qed.

Example test_game_list_query :
  Wire.urlencode [("include_unapproved", PBool false)] = "include_unapproved=False".
Proof. reflexivity. Qed.

Example test_download_link_query :
  Wire.urlencode [("key", PStr "key"); ("expires", PStr "expires")] =
  "key=key&expires=expires".
Proof. reflexivity. Qed.

Example test_errors_404 :
  (_make_request Fixture.env "get" "test_endpoint1" None None None
     Fixture.TEST_INSTANCE).1 =
  Raise (RequestError "Status Code 404 - error message").
Proof. vm_compute. reflexivity. Qed.

Example test_errors_429 :
  (_make_request Fixture.env "get" "test_endpoint3" None None None
     Fixture.TEST_INSTANCE).1 =
  Raise (LimitReachedError
    "You have reached your request limit. Please wait one hour before trying again.").
Proof. vm_compute. reflexivity. Qed.

Example test_nexus_headers :
  nexus_headers (_make_request Fixture.env "get" "test_endpoint3" None None None
     Fixture.TEST_INSTANCE).2 =
  {[ "X-RL-Daily-Remaining" := "2499"; "X-RL-Hourly-Limit" := "100" ]}.
Proof. vm_compute. reflexivity. Qed.

(** ** Substring test *)

Section StringFacts.

Implicit Types s p pre post needle hay : string.

Lemma append_cons c s1 s2 : String c s1 +:+ s2 = String c (s1 +:+ s2).
Proof. reflexivity. Qed.

Lemma append_nil_r s : s +:+ "" = s.
Proof. induction s as [|c s IH]; [reflexivity|]. by rewrite append_cons, IH. Qed.

Lemma string_app_assoc s1 s2 s3 : (s1 +:+ s2) +:+ s3 = s1 +:+ (s2 +:+ s3).
Proof.
  induction s1 as [|c s1 IH]; [reflexivity|].
  by rewrite !append_cons, IH.
Qed.

Lemma startswith_append p post : PyStr.startswith p (p +:+ post) = true.
Proof.
  induction p as [|c p IH]; [reflexivity|].
  rewrite append_cons. simpl. by rewrite Ascii.eqb_refl.
Qed.

Lemma startswith_split p s :
  PyStr.startswith p s = true → ∃ post, s = p +:+ post.
Proof.
  revert s. induction p as [|c p IH]; intros s H.
  - exists s. reflexivity.
  - destruct s as [|b s]; simpl in H; [discriminate|].
    destruct (Ascii.eqb_spec c b) as [->|]; [|discriminate].
    destruct (IH s H) as [post ->]. by exists post.
Qed.

(** [needle in hay] holds exactly when [hay] is [needle] between two strings. *)
Lemma contains_spec needle hay :
  PyStr.contains needle hay = true ↔ ∃ pre post, hay = pre +:+ needle +:+ post.
Proof.
  split.
  - induction hay as [|c hay IH]; simpl; intros H.
    + apply orb_true_iff in H as [H|H]; [|discriminate].
      apply startswith_split in H as [post H]. by exists "", post.
    + apply orb_true_iff in H as [H|H].
      * apply startswith_split in H as [post H]. by exists "", post.
      * destruct (IH H) as (pre & post & ->). by exists (String c pre), post.
  - intros (pre & post & ->).
    induction pre as [|c pre IH].
    + change ("" +:+ needle +:+ post) with (needle +:+ post).
      destruct (needle +:+ post) eqn:E; simpl; rewrite <- E;
        by rewrite startswith_append.
    + rewrite append_cons. simpl. rewrite IH. apply orb_true_r.
Qed.

Lemma contains_status_code (code : Z) (what : string) :
  PyStr.contains (PyStr.str_of_int code) (status_message code what) = true.
Proof.
  apply contains_spec. exists "Status Code ", (" - " +:+ what).
  reflexivity.
Qed.

Lemma contains_status_what (code : Z) (what : string) :
  PyStr.contains what (status_message code what) = true.
Proof.
  apply contains_spec.
  exists ("Status Code " +:+ PyStr.str_of_int code +:+ " - "), "".
  unfold status_message.
  by rewrite append_nil_r, !string_app_assoc.
Qed.

End StringFacts.

(** ** The dispatcher on one answered request *)

(** Unfolds one run of the dispatcher down to the environment's answer. *)
Ltac run_dispatch :=
  unfold _make_request, session_request, set_nexus_headers, response_json,
    getitem, try_except_KeyError, raise, mbind, M_bind, mret, M_ret, issued in *;
  simpl in *.

(** Splits on every remaining test of the dispatcher, for facts that hold
    on each of its paths. *)
Ltac every_path :=
  repeat match goal with
  | |- context [if ?b then _ else _] => destruct b; simpl
  | |- context [match r_json ?r with _ => _ end] => destruct (r_json r) as [[]|]; simpl
  | |- context [match ?d !! ?k with _ => _ end] => destruct (d !! k); simpl
  end; reflexivity.

(** Decides the status tests of the dispatcher from facts about the code. *)
Ltac status_tests :=
  repeat match goal with
  | |- context [(?c =? ?k)] =>
      first [ rewrite (proj2 (Z.eqb_eq c k)) by (congruence || lia)
            | rewrite (proj2 (Z.eqb_neq c k)) by (congruence || lia) ]
  end; simpl.

Section Dispatch.

Context (env : Environment).
Context (operation endpoint : string).
Context (payload data : option (list (string * param))).
Context (headers : option (gmap string string)).
Context (st : State) (response : Response).

(** The server answers the request of this call with [response]. *)
Hypothesis answered :
  network env
    (Wire.prepare (session_headers st)
       (issued operation endpoint payload data headers)) = inl response.

(** The call is recorded, whatever the environment answers. *)
Lemma dispatch_sent :
  sent (_make_request env operation endpoint payload data headers st).2 =
  sent st ++ [issued operation endpoint payload data headers].
Proof using Type.
  clear answered. run_dispatch.
  destruct payload, data, headers; simpl;
    match goal with |- context [network env ?p] => destruct (network env p) as [r|e] end;
    simpl; try reflexivity;
    every_path.
Qed.

(** The persistent headers of the session are never written. *)
Lemma dispatch_session_headers :
  session_headers (_make_request env operation endpoint payload data headers st).2 =
  session_headers st.
Proof using Type.
  clear answered. run_dispatch.
  destruct payload, data, headers; simpl;
    match goal with |- context [network env ?p] => destruct (network env p) as [r|e] end;
    simpl; try reflexivity;
    every_path.
Qed.

(** When the transport fails there is no response: its exception is the
    outcome and only the record of the call changes. *)
Lemma dispatch_unanswered (e : exn) :
  network env
    (Wire.prepare (session_headers st)
       (issued operation endpoint payload data headers)) = inr e →
  _make_request env operation endpoint payload data headers st =
  (Raise e,
   {| session_headers := session_headers st;
      nexus_headers := nexus_headers st;
      sent := sent st ++ [issued operation endpoint payload data headers];
      decoded := decoded st |}).
Proof using Type.
  clear answered. intros Hfail. run_dispatch.
  destruct payload, data, headers; simpl in *; rewrite Hfail; reflexivity.
Qed.

(** On an answered request the metadata is the filtered response headers,
    before the status code is looked at. *)
Lemma dispatch_nexus_headers :
  nexus_headers (_make_request env operation endpoint payload data headers st).2 =
  filter (λ kv, Is_true (PyStr.contains "X-" kv.1)) (r_headers response).
Proof using answered.
  run_dispatch. destruct payload, data, headers; simpl in *;
    rewrite answered; simpl;
    every_path.
Qed.

(** The whole result of a call answered with status 200 or 201. *)
Lemma dispatch_on_success :
  status_code response = 200 ∨ status_code response = 201 →
  _make_request env operation endpoint payload data headers st =
  (match r_json response with
   | Some v => Return v
   | None => Raise JSONDecodeError
   end,
   {| session_headers := session_headers st;
      nexus_headers :=
        filter (λ kv, Is_true (PyStr.contains "X-" kv.1)) (r_headers response);
      sent := sent st ++ [issued operation endpoint payload data headers];
      decoded := S (decoded st) |}).
Proof using answered.
  intros Hcode. run_dispatch.
  destruct payload, data, headers; simpl in *; rewrite answered; simpl;
    (destruct Hcode as [-> | ->]; simpl; destruct (r_json response); auto).
Qed.

(** C1: on status 200 or 201 the dispatcher decodes the body once and
    returns the decoded value as it is (a body that does not decode makes
    the decoder's exception the outcome), for every operation, endpoint
    and parameter mapping. *)
Theorem dispatch_success_returns_json :
  status_code response = 200 ∨ status_code response = 201 →
  (_make_request env operation endpoint payload data headers st).1 =
    match r_json response with
    | Some v => Return v
    | None => Raise JSONDecodeError
    end
  ∧ decoded (_make_request env operation endpoint payload data headers st).2 =
      S (decoded st).
Proof using answered.
  intros Hcode. rewrite (dispatch_on_success Hcode). split; reflexivity.
Qed.

(** C2: on status 429 the dispatcher raises [LimitReachedError] with the
    fixed wait-one-hour text, whatever the body is, and [response.json()]
    is not called. *)
Theorem dispatch_429_limit_reached :
  status_code response = 429 →
  (_make_request env operation endpoint payload data headers st).1 =
    Raise (LimitReachedError
      "You have reached your request limit. Please wait one hour before trying again.")
  ∧ PyStr.contains "wait one hour" LIMIT_MESSAGE = true
  ∧ decoded (_make_request env operation endpoint payload data headers st).2 =
      decoded st.
Proof using answered.
  intros Hcode. run_dispatch.
  destruct payload, data, headers; simpl in *; rewrite answered; simpl;
    rewrite Hcode; simpl; auto.
Qed.

(** C5: on status 503 or 504 the dispatcher raises [RequestError] with
    the text "Status Code <code> - <reason>", made of the numeric code
    and the reason phrase, and [response.json()] is not called. *)
Theorem dispatch_unavailable_reason :
  status_code response = 503 ∨ status_code response = 504 →
  (_make_request env operation endpoint payload data headers st).1 =
    Raise (RequestError
      ("Status Code " +:+ PyStr.str_of_int (status_code response) +:+ " - " +:+
       reason response))
  ∧ PyStr.contains (PyStr.str_of_int (status_code response))
      (status_message (status_code response) (reason response)) = true
  ∧ PyStr.contains (reason response)
      (status_message (status_code response) (reason response)) = true
  ∧ decoded (_make_request env operation endpoint payload data headers st).2 =
      decoded st.
Proof using answered.
  intros Hcode.
  split; [|split; [apply contains_status_code|split; [apply contains_status_what|]]];
    run_dispatch;
    destruct payload, data, headers; simpl in *; rewrite answered; simpl;
    (destruct Hcode as [Hc | Hc]; rewrite Hc; simpl; reflexivity).
Qed.

(** C3: on any other status, with a body that decodes to a mapping, the
    dispatcher raises [RequestError] with the text "Status Code <code> -
    <text>" where <text> is the value under [message], or, when there is
    no [message] key, the value under [error]; the text contains the
    numeric code and that value. *)
Theorem dispatch_other_status_message (d : gmap string value) :
  other_status (status_code response) →
  r_json response = Some (VDict d) →
  (∀ m, d !! "message" = Some m →
     (_make_request env operation endpoint payload data headers st).1 =
       Raise (RequestError (status_message (status_code response) (py_str env m)))
     ∧ PyStr.contains (PyStr.str_of_int (status_code response))
         (status_message (status_code response) (py_str env m)) = true
     ∧ PyStr.contains (py_str env m)
         (status_message (status_code response) (py_str env m)) = true
     ∧ decoded (_make_request env operation endpoint payload data headers st).2 =
         S (decoded st))
  ∧ (∀ e, d !! "message" = None → d !! "error" = Some e →
     (_make_request env operation endpoint payload data headers st).1 =
       Raise (RequestError (status_message (status_code response) (py_str env e)))
     ∧ PyStr.contains (PyStr.str_of_int (status_code response))
         (status_message (status_code response) (py_str env e)) = true
     ∧ PyStr.contains (py_str env e)
         (status_message (status_code response) (py_str env e)) = true
     ∧ decoded (_make_request env operation endpoint payload data headers st).2 =
         S (S (decoded st))).
Proof using answered.
  intros (H200 & H201 & H429 & H503 & H504) Hjson.
  split; [intros m Hm | intros e Hm He];
    (split; [|split; [apply contains_status_code|split; [apply contains_status_what|]]]);
    run_dispatch;
    destruct payload, data, headers; simpl in *; rewrite answered; simpl;
    status_tests; rewrite Hjson; simpl; rewrite Hm; simpl;
    try rewrite He; reflexivity.
Qed.

(** C7: on any other status, with a body that decodes to a mapping with
    neither a [message] nor an [error] key, the outcome is the [KeyError]
    of the second lookup, which is neither of the library's two exception
    classes; the metadata has been refreshed all the same. *)
Theorem dispatch_other_status_no_field (d : gmap string value) :
  other_status (status_code response) →
  r_json response = Some (VDict d) →
  d !! "message" = None →
  d !! "error" = None →
  (_make_request env operation endpoint payload data headers st).1 =
    Raise (KeyError "error")
  ∧ library_error (KeyError "error") = false
  ∧ nexus_headers (_make_request env operation endpoint payload data headers st).2 =
    filter (λ kv, Is_true (PyStr.contains "X-" kv.1)) (r_headers response).
Proof using answered.
  intros (H200 & H201 & H429 & H503 & H504) Hjson Hm He.
  split; [|split; [reflexivity | apply dispatch_nexus_headers]].
  run_dispatch.
  destruct payload, data, headers; simpl in *; rewrite answered; simpl;
    status_tests; rewrite Hjson; simpl; rewrite Hm; simpl;
    rewrite He; reflexivity.
Qed.

(** C4: after a call that was answered, whatever its outcome, the
    metadata mapping holds exactly the response headers whose name has
    "X-" somewhere inside it, with their values. *)
Theorem dispatch_refreshes_metadata (name v : string) :
  nexus_headers (_make_request env operation endpoint payload data headers st).2
    !! name = Some v ↔
  r_headers response !! name = Some v ∧
  ∃ pre post, name = pre +:+ "X-" +:+ post.
Proof using answered.
  rewrite dispatch_nexus_headers, map_lookup_filter_Some. simpl.
  rewrite <- contains_spec.
  destruct (PyStr.contains "X-" name); simpl; intuition congruence.
Qed.

End Dispatch.

(** ** Endpoint methods *)

Section Endpoints.

Context (env : Environment).

(** Discarding a result keeps the state the call left behind. *)
Lemma discard_state {A B : Type} (m : M A) (b : B) (st : State) :
  ((m ;; mret b) st).2 = (m st).2.
Proof. unfold mbind, M_bind, mret, M_ret. by destruct (m st) as [[a|e] st']. Qed.

Lemma discard_outcome {A B : Type} (m : M A) (b : B) (st : State) (a : A) :
  (m st).1 = Return a → ((m ;; mret b) st).1 = Return b.
Proof.
  unfold mbind, M_bind, mret, M_ret.
  destruct (m st) as [[a'|e] st']; simpl; [reflexivity | discriminate].
Qed.

(** A header given with the call replaces the session's under that name. *)
Lemma merge_single_header (session : gmap string string) (name v : string) :
  Wire.ci_get (Wire.merge_headers session {[ name := v ]}) name = Some v.
Proof.
  unfold Wire.merge_headers, Wire.ci_get.
  rewrite map_fold_singleton. apply lookup_insert_eq.
Qed.

(** The constructor sets the JSON content type on the session. *)
Lemma init_content_type (api_key : string) :
  Wire.ci_get (session_headers (__init__ env api_key)) "content-type" =
  Some "application/json".
Proof. unfold __init__, Wire.ci_get. simpl. apply lookup_insert_eq. Qed.

(** C6: [game_updated_list] with a period outside "1d", "1w", "1m" raises
    [ValueError] and leaves the state as it was, so nothing was sent;
    with one of the three it sends one request whose query mapping is
    [period] alone and whose query string is "period=<value>". *)
Theorem game_updated_list_period (game period : string) (st : State) :
  (period ∉ ["1d"; "1w"; "1m"] →
     (game_updated_list env game period st).1 =
       Raise (ValueError "Allowed values for 'period' argument: '1d', '1w', '1m'.")
     ∧ (game_updated_list env game period st).2 = st
     ∧ sent (game_updated_list env game period st).2 = sent st)
  ∧ (period ∈ ["1d"; "1w"; "1m"] →
     ∃ req,
       sent (game_updated_list env game period st).2 = sent st ++ [req]
       ∧ params req = [("period", PStr period)]
       ∧ Wire.w_query (Wire.prepare (session_headers st) req) = "period=" +:+ period).
Proof.
  unfold game_updated_list. split; intros Hp.
  - rewrite bool_decide_eq_false_2 by assumption. simpl. auto.
  - rewrite bool_decide_eq_true_2 by assumption. simpl.
    eexists. split; [apply dispatch_sent|]. split; [reflexivity|].
    rewrite !elem_of_cons, elem_of_nil in Hp.
    destruct Hp as [-> | [-> | [-> | []]]]; reflexivity.
Qed.

(** C8: [mod_file_download_link] without [nxm_key] or without [expires],
    and [mod_file_list] without categories, send one request whose query
    mapping is empty and whose query string is empty. *)
Theorem omitted_optionals_send_no_query (game mod_id file_id : string)
    (nxm_key expires : option string) (st : State) :
  (nxm_key = None ∨ expires = None →
     ∃ req,
       sent (mod_file_download_link env game mod_id file_id nxm_key expires st).2 =
         sent st ++ [req]
       ∧ params req = []
       ∧ Wire.w_query (Wire.prepare (session_headers st) req) = "")
  ∧ (∃ req,
       sent (mod_file_list env game mod_id CatOther st).2 = sent st ++ [req]
       ∧ params req = []
       ∧ Wire.w_query (Wire.prepare (session_headers st) req) = "").
Proof.
  split.
  - intros Hnone. unfold mod_file_download_link.
    eexists. split; [apply dispatch_sent|].
    destruct Hnone as [-> | ->]; [|destruct nxm_key]; split; reflexivity.
  - unfold mod_file_list.
    eexists. split; [apply dispatch_sent|]. split; reflexivity.
Qed.

(** C9: [user_tracked_add] sends one POST to the tracked-mods endpoint
    with query [domain_name=<game>] and form body [mod_id=<mod_id>]; the
    content type that goes out is the form one although the session's is
    the JSON one, and the session headers are the same afterwards. *)
Theorem user_tracked_add_request (game mod_id : string) (st : State) :
  Wire.ci_get (session_headers st) "content-type" = Some "application/json" →
  ∃ req,
    sent (user_tracked_add env game mod_id st).2 = sent st ++ [req]
    ∧ method req = "POST"
    ∧ url req = BASE_URL +:+ "user/tracked_mods.json"
    ∧ params req = [("domain_name", PStr game)]
    ∧ data req = [("mod_id", PStr mod_id)]
    ∧ Wire.ci_get (Wire.w_headers (Wire.prepare (session_headers st) req))
        "content-type" = Some "application/x-www-form-urlencoded"
    ∧ Wire.w_query (Wire.prepare (session_headers st) req) =
        "domain_name=" +:+ Wire.quote_plus game
    ∧ Wire.w_body (Wire.prepare (session_headers st) req) =
        "mod_id=" +:+ Wire.quote_plus mod_id
    ∧ session_headers (user_tracked_add env game mod_id st).2 = session_headers st
    ∧ Wire.ci_get (session_headers (user_tracked_add env game mod_id st).2)
        "content-type" = Some "application/json".
Proof.
  intros Hjson. unfold user_tracked_add.
  rewrite discard_state.
  eexists. split; [apply dispatch_sent|].
  repeat split; try reflexivity.
  - apply merge_single_header.
  - apply dispatch_session_headers.
  - by rewrite dispatch_session_headers.
Qed.

End Endpoints.

(** ** What the endpoint methods return *)

Section Results.

Context (env : Environment) (st : State) (response : Response) (v : value).

(** C10: against a server that answers with a successful response whose
    body decodes to [v], [user_tracked_add] and [user_tracked_delete]
    return [None], while every other endpoint method (called with
    arguments that pass its own check) returns [v]. *)
Theorem tracked_mutations_return_none :
  (∀ p, network env p = inl response) →
  status_code response = 200 ∨ status_code response = 201 →
  r_json response = Some v →
  ∀ c : Call,
    passes_validation c = true →
    (invoke env c st).1 =
      if is_tracked_mutation c then Return VNone else Return v.
Proof.
  intros Hnet Hcode Hjson c Hvalid.
  assert (Hok : ∀ operation endpoint payload data headers,
    (_make_request env operation endpoint payload data headers st).1 = Return v).
  { intros. rewrite (dispatch_on_success _ _ _ _ _ _ _ response); [|apply Hnet|done].
    simpl. by rewrite Hjson. }
  destruct c; simpl in *;
    try apply Hok;
    try (eapply discard_outcome; apply Hok).
  unfold game_updated_list. rewrite Hvalid. simpl. apply Hok.
Qed.

End Results.

(** ** The theorems at the fixtures of the test-suite *)

Section Witnesses.

Import Fixture.

Local Abbreviation get endpoint :=
  (_make_request env "get" endpoint None None None TEST_INSTANCE).

Lemma dispatch_success_returns_json_witness :
  (get "colourschemes.json").1 = Return TEST_JSON
  ∧ decoded (get "colourschemes.json").2 = 1%nat.
Proof.
  apply (dispatch_success_returns_json env "get" "colourschemes.json"
           None None None TEST_INSTANCE ok).
  - vm_compute. reflexivity.
  - left. reflexivity.
Defined.

Lemma dispatch_429_limit_reached_witness :
  (get "test_endpoint3").1 = Raise (LimitReachedError
    "You have reached your request limit. Please wait one hour before trying again.")
  ∧ PyStr.contains "wait one hour" LIMIT_MESSAGE = true
  ∧ decoded (get "test_endpoint3").2 = 0%nat.
Proof.
  apply (dispatch_429_limit_reached env "get" "test_endpoint3"
           None None None TEST_INSTANCE too_many).
  - vm_compute. reflexivity.
  - reflexivity.
Defined.

Lemma dispatch_unavailable_reason_witness :
  (get "test_endpoint4").1 =
    Raise (RequestError "Status Code 503 - Service Unavailable")
  ∧ decoded (get "test_endpoint4").2 = 0%nat.
Proof.
  destruct (dispatch_unavailable_reason env "get" "test_endpoint4"
              None None None TEST_INSTANCE unavailable)
    as (Hout & _ & _ & Hdecoded).
  - vm_compute. reflexivity.
  - left. reflexivity.
  - split; [exact Hout | exact Hdecoded].
Defined.

Lemma dispatch_other_status_message_witness :
  (get "test_endpoint2").1 = Raise (RequestError "Status Code 422 - error message")
  ∧ (get "test_endpoint1").1 = Raise (RequestError "Status Code 404 - error message").
Proof.
  split.
  - destruct (dispatch_other_status_message env "get" "test_endpoint2"
                None None None TEST_INSTANCE
                unprocessable
                ltac:(vm_compute; reflexivity)
                message_body) as [Hmessage _].
    + unfold other_status. simpl. lia.
    + reflexivity.
    + apply (Hmessage (VStr "error message")). vm_compute. reflexivity.
  - destruct (dispatch_other_status_message env "get" "test_endpoint1"
                None None None TEST_INSTANCE
                not_found
                ltac:(vm_compute; reflexivity)
                error_body) as [_ Herror].
    + unfold other_status. simpl. lia.
    + reflexivity.
    + apply (Herror (VStr "error message")); vm_compute; reflexivity.
Defined.

Lemma dispatch_other_status_no_field_witness :
  (get "test_endpoint5").1 = Raise (KeyError "error")
  ∧ library_error (KeyError "error") = false
  ∧ nexus_headers (get "test_endpoint5").2 =
    {[ "X-RL-Daily-Remaining" := "2499"; "X-RL-Hourly-Limit" := "100" ]}.
Proof.
  apply (dispatch_other_status_no_field env "get" "test_endpoint5"
           None None None TEST_INSTANCE
           internal_error
           ltac:(vm_compute; reflexivity)
           bare_body).
  - unfold other_status. simpl. lia.
  - reflexivity.
  - vm_compute. reflexivity.
  - vm_compute. reflexivity.
Defined.

Lemma dispatch_refreshes_metadata_witness :
  nexus_headers (get "test_endpoint3").2 !! "X-RL-Daily-Remaining" = Some "2499".
Proof.
  apply (dispatch_refreshes_metadata env "get" "test_endpoint3"
           None None None TEST_INSTANCE too_many).
  - vm_compute. reflexivity.
  - split.
    + vm_compute. reflexivity.
    + exists "", "RL-Daily-Remaining". reflexivity.
Defined.

Lemma game_updated_list_period_witness :
  ((game_updated_list env "game_id" "2d" TEST_INSTANCE).1 =
     Raise (ValueError "Allowed values for 'period' argument: '1d', '1w', '1m'.")
   ∧ (game_updated_list env "game_id" "2d" TEST_INSTANCE).2 = TEST_INSTANCE
   ∧ sent (game_updated_list env "game_id" "2d" TEST_INSTANCE).2 = [])
  ∧ ∃ req,
      sent (game_updated_list env "game_id" "1d" TEST_INSTANCE).2 = [req]
      ∧ params req = [("period", PStr "1d")]
      ∧ Wire.w_query (Wire.prepare (session_headers TEST_INSTANCE) req) = "period=1d".
Proof.
  split.
  - apply (game_updated_list_period env "game_id" "2d" TEST_INSTANCE).
    refine (proj1 (bool_decide_eq_false _) _). vm_compute. reflexivity.
  - apply (game_updated_list_period env "game_id" "1d" TEST_INSTANCE).
    refine (proj1 (bool_decide_eq_true _) _). vm_compute. reflexivity.
Defined.

Lemma omitted_optionals_send_no_query_witness :
  ∃ req,
    sent (mod_file_download_link env "game_id" "mod_id" "file_id" None None
            TEST_INSTANCE).2 = [req]
    ∧ params req = []
    ∧ Wire.w_query (Wire.prepare (session_headers TEST_INSTANCE) req) = "".
Proof.
  apply (omitted_optionals_send_no_query env "game_id" "mod_id" "file_id"
           None None TEST_INSTANCE).
  left. reflexivity.
Defined.

Lemma user_tracked_add_request_witness :
  ∃ req,
    sent (user_tracked_add env "game" "mod_id" TEST_INSTANCE).2 = [req]
    ∧ method req = "POST"
    ∧ url req = "https://api.nexusmods.com/v1/user/tracked_mods.json"
    ∧ params req = [("domain_name", PStr "game")]
    ∧ data req = [("mod_id", PStr "mod_id")]
    ∧ Wire.ci_get (Wire.w_headers (Wire.prepare (session_headers TEST_INSTANCE) req))
        "content-type" = Some "application/x-www-form-urlencoded"
    ∧ Wire.w_query (Wire.prepare (session_headers TEST_INSTANCE) req) =
        "domain_name=game"
    ∧ Wire.w_body (Wire.prepare (session_headers TEST_INSTANCE) req) =
        "mod_id=mod_id"
    ∧ session_headers (user_tracked_add env "game" "mod_id" TEST_INSTANCE).2 =
        session_headers TEST_INSTANCE
    ∧ Wire.ci_get (session_headers (user_tracked_add env "game" "mod_id" TEST_INSTANCE).2)
        "content-type" = Some "application/json".
Proof.
  apply (user_tracked_add_request env "game" "mod_id" TEST_INSTANCE).
  vm_compute. reflexivity.
Defined.

Lemma tracked_mutations_return_none_witness :
  (invoke (answering ok) (UserTrackedAdd "game" "mod_id") TEST_INSTANCE).1 =
    Return VNone
  ∧ (invoke (answering ok) (UserTrackedDelete "game" "mod_id") TEST_INSTANCE).1 =
    Return VNone
  ∧ (invoke (answering ok) UserTrackedList TEST_INSTANCE).1 = Return TEST_JSON.
Proof.
  assert (H : ∀ c, passes_validation c = true →
    (invoke (answering ok) c TEST_INSTANCE).1 =
      if is_tracked_mutation c then Return VNone else Return TEST_JSON).
  { apply (tracked_mutations_return_none (answering ok) TEST_INSTANCE ok TEST_JSON).
    - intros p. reflexivity.
    - left. reflexivity.
    - reflexivity. }
  split; [|split].
  - apply (H (UserTrackedAdd "game" "mod_id")). reflexivity.
  - apply (H (UserTrackedDelete "game" "mod_id")). reflexivity.
  - apply (H UserTrackedList). reflexivity.
Defined.

End Witnesses.

(** * The rest of the dispatcher *)

Section DispatchEdges.

Context (env : Environment).
Context (operation endpoint : string).
Context (payload data : option (list (string * param))).
Context (headers : option (gmap string string)).
Context (st : State) (response : Response).

Hypothesis answered :
  network env
    (Wire.prepare (session_headers st)
       (issued operation endpoint payload data headers)) = inl response.

(** Outside 200 and 201 every path of the dispatcher ends in a [raise]. *)
Lemma dispatch_failure :
  status_code response ≠ 200 →
  status_code response ≠ 201 →
  ∃ e, (_make_request env operation endpoint payload data headers st).1 = Raise e
       ∧ (status_code response = 429 → e = LimitReachedError LIMIT_MESSAGE)
       ∧ (status_code response = 503 ∨ status_code response = 504 →
          e = RequestError (status_message (status_code response) (reason response))).
Proof using answered.
  intros H200 H201. run_dispatch.
  destruct payload, data, headers; simpl in *; rewrite answered; simpl;
    rewrite (proj2 (Z.eqb_neq _ 200)), (proj2 (Z.eqb_neq _ 201)) by assumption; simpl;
    (destruct (Z.eqb_spec (status_code response) 429) as [E429|N429]; simpl;
     [ eexists; split; [reflexivity|]; split; [reflexivity | lia] |]);
    (destruct (Z.eqb_spec (status_code response) 503) as [E503|N503]; simpl;
     [ eexists; split; [reflexivity|]; split; [lia | reflexivity] |]);
    (destruct (Z.eqb_spec (status_code response) 504) as [E504|N504]; simpl;
     [ eexists; split; [reflexivity|]; split; [lia | reflexivity] |]);
    (destruct (r_json response) as [[| | | | | |d]|]; simpl;
     try (eexists; split; [reflexivity|]; split; [lia | lia]));
    (destruct (d !! "message"); simpl;
     [eexists; split; [reflexivity|]; split; [lia | lia] |]);
    (destruct (d !! "error"); simpl;
     eexists; (split; [reflexivity|]); split; lia).
Qed.

(** X1: the dispatcher hands a value back only for status 200 or 201, and
    then it is the decoded body: any other status, 204 and the other 2xx
    and 3xx codes included, ends in an exception. *)
Theorem dispatch_returns_only_on_success (v : value) :
  (_make_request env operation endpoint payload data headers st).1 = Return v →
  (status_code response = 200 ∨ status_code response = 201)
  ∧ r_json response = Some v.
Proof using answered.
  intros Hret.
  destruct (Z.eq_dec (status_code response) 200) as [E200|N200];
    [|destruct (Z.eq_dec (status_code response) 201) as [E201|N201]].
  - split; [by left|].
    rewrite (dispatch_on_success _ _ _ _ _ _ _ _ answered (or_introl E200)) in Hret.
    simpl in Hret. destruct (r_json response); congruence.
  - split; [by right|].
    rewrite (dispatch_on_success _ _ _ _ _ _ _ _ answered (or_intror E201)) in Hret.
    simpl in Hret. destruct (r_json response); congruence.
  - destruct (dispatch_failure N200 N201) as (e & He & _). congruence.
Qed.

(** X2: on any other status, a body that does not decode makes the
    decoder's exception the outcome after one decoding attempt: the
    [except KeyError] clause does not catch it and no [RequestError] is
    built. *)
Theorem dispatch_other_status_undecodable :
  other_status (status_code response) →
  r_json response = None →
  (_make_request env operation endpoint payload data headers st).1 =
    Raise JSONDecodeError
  ∧ library_error JSONDecodeError = false
  ∧ decoded (_make_request env operation endpoint payload data headers st).2 =
      S (decoded st).
Proof using answered.
  intros (H200 & H201 & H429 & H503 & H504) Hjson.
  run_dispatch.
  destruct payload, data, headers; simpl in *; rewrite answered; simpl;
    status_tests; rewrite Hjson; simpl; auto.
Qed.

(** X3: on any other status, a body that decodes to something that is not
    a mapping (a list, a string, a number, [true], [null]) makes the
    subscript's [TypeError] the outcome, again after one decoding attempt
    and without a [RequestError]. *)
Theorem dispatch_other_status_not_a_mapping (v : value) :
  other_status (status_code response) →
  r_json response = Some v →
  (∀ d, v ≠ VDict d) →
  (_make_request env operation endpoint payload data headers st).1 = Raise TypeError
  ∧ library_error TypeError = false
  ∧ decoded (_make_request env operation endpoint payload data headers st).2 =
      S (decoded st).
Proof using answered.
  intros (H200 & H201 & H429 & H503 & H504) Hjson Hshape.
  run_dispatch.
  destruct payload, data, headers; simpl in *; rewrite answered; simpl;
    status_tests; rewrite Hjson; simpl;
    (destruct v as [| | | | | |d]; simpl; auto; by destruct (Hshape d)).
Qed.

End DispatchEdges.

Section DispatchSequences.

Context (env : Environment).
Context (operation endpoint : string).
Context (payload data : option (list (string * param))).
Context (headers : option (gmap string string)).
Context (st : State).

(** X4: when the transport raises instead of answering, that exception is
    the outcome as it is; the metadata keeps what the previous call left,
    nothing is decoded, and the attempt is on record. *)
Theorem dispatch_transport_failure (e : exn) :
  network env
    (Wire.prepare (session_headers st)
       (issued operation endpoint payload data headers)) = inr e →
  (_make_request env operation endpoint payload data headers st).1 = Raise e
  ∧ nexus_headers (_make_request env operation endpoint payload data headers st).2 =
      nexus_headers st
  ∧ decoded (_make_request env operation endpoint payload data headers st).2 =
      decoded st
  ∧ sent (_make_request env operation endpoint payload data headers st).2 =
      sent st ++ [issued operation endpoint payload data headers].
Proof.
  intros Hfail. run_dispatch.
  destruct payload, data, headers; simpl in *; rewrite Hfail; simpl; auto.
Qed.

Context (operation' endpoint' : string).
Context (payload' data' : option (list (string * param))).
Context (headers' : option (gmap string string)).
Context (response' : Response).

(** X5: the metadata is replaced, not merged.  After any first call,
    whatever its outcome, a second call that is answered leaves exactly the
    "X-" headers of its own response: a header only the first response had
    is gone. *)
Theorem dispatch_metadata_replaced (name : string) :
  network env
    (Wire.prepare (session_headers st)
       (issued operation' endpoint' payload' data' headers')) = inl response' →
  r_headers response' !! name = None →
  nexus_headers
    (_make_request env operation' endpoint' payload' data' headers'
       (_make_request env operation endpoint payload data headers st).2).2
    !! name = None
  ∧ nexus_headers
      (_make_request env operation' endpoint' payload' data' headers'
         (_make_request env operation endpoint payload data headers st).2).2 =
    filter (λ kv, Is_true (PyStr.contains "X-" kv.1)) (r_headers response').
Proof.
  intros Hanswer Hgone.
  assert (Hnew :
    nexus_headers
      (_make_request env operation' endpoint' payload' data' headers'
         (_make_request env operation endpoint payload data headers st).2).2 =
    filter (λ kv, Is_true (PyStr.contains "X-" kv.1)) (r_headers response')).
  { apply dispatch_nexus_headers. by rewrite dispatch_session_headers. }
  split; [|exact Hnew].
  rewrite Hnew. apply map_lookup_filter_None. left. exact Hgone.
Qed.

End DispatchSequences.

(** * All endpoint methods at once *)

Section EveryEndpoint.

Context (env : Environment).

(** Each endpoint method is its argument check followed by one call of
    the dispatcher; the two tracked-mods mutations pass the form content
    type and drop the result. *)
Lemma invoke_cases (c : Call) :
  (passes_validation c = false
   ∧ ∀ st, invoke env c st =
       (Raise (ValueError "Allowed values for 'period' argument: '1d', '1w', '1m'."), st))
  ∨ (passes_validation c = true
     ∧ ∃ operation endpoint payload data headers,
         (∀ st, invoke env c st =
            if is_tracked_mutation c
            then (_make_request env operation endpoint payload data headers;;
                  mret VNone) st
            else _make_request env operation endpoint payload data headers st)
         ∧ headers =
             if is_tracked_mutation c
             then Some {[ "content-type" := "application/x-www-form-urlencoded" ]}
             else None).
Proof.
  destruct c; simpl;
    try (right; split; [reflexivity|];
         eexists _, _, _, _, _; split; [intros st; reflexivity | reflexivity]).
  unfold game_updated_list.
  destruct (bool_decide (period ∈ ["1d"; "1w"; "1m"])); simpl.
  - right. split; [reflexivity|].
    eexists _, _, _, _, _; split; [intros st; reflexivity | reflexivity].
  - left. split; [reflexivity|]. intros st. reflexivity.
Qed.

(** The state an endpoint method leaves is the one its dispatcher call leaves. *)
Lemma invoke_state (c : Call) :
  passes_validation c = true →
  ∃ operation endpoint payload data headers,
    (∀ st, (invoke env c st).2 =
           (_make_request env operation endpoint payload data headers st).2)
    ∧ headers =
        if is_tracked_mutation c
        then Some {[ "content-type" := "application/x-www-form-urlencoded" ]}
        else None.
Proof.
  intros Hvalid.
  destruct (invoke_cases c) as [[Hbad _] | (_ & op & ep & pl & da & hd & Hrun & Hhd)];
    [congruence|].
  exists op, ep, pl, da, hd. split; [|exact Hhd].
  intros st. rewrite Hrun.
  destruct (is_tracked_mutation c); [apply discard_state | reflexivity].
Qed.

(** X6: no endpoint method writes the persistent headers of the session,
    whatever it is called with and however the call ends. *)
Theorem invoke_keeps_session_headers (c : Call) (st : State) :
  session_headers (invoke env c st).2 = session_headers st.
Proof.
  destruct (invoke_cases c) as [[_ Hbad] | [Hvalid _]].
  - by rewrite Hbad.
  - destruct (invoke_state c Hvalid) as (op & ep & pl & da & hd & Hst & _).
    rewrite Hst. apply dispatch_session_headers.
Qed.

(** X7: an endpoint method whose arguments pass its check hands exactly one
    request to the session, however the call ends (there is no retry), to
    an address under [BASE_URL] and with a timeout of 30 seconds; one
    whose arguments fail the check hands over none. *)
Theorem invoke_sends_one_request (c : Call) (st : State) :
  if passes_validation c
  then ∃ req, sent (invoke env c st).2 = sent st ++ [req]
              ∧ PyStr.startswith BASE_URL (url req) = true
              ∧ timeout req = 30
  else sent (invoke env c st).2 = sent st.
Proof.
  destruct (invoke_cases c) as [[Hinvalid Hbad] | [Hvalid _]].
  - rewrite Hinvalid. by rewrite Hbad.
  - rewrite Hvalid.
    destruct (invoke_state c Hvalid) as (op & ep & pl & da & hd & Hst & _).
    rewrite Hst. eexists. split; [apply dispatch_sent|].
    split; [apply startswith_append | reflexivity].
Qed.

(** X8: the verb of each endpoint method: POST for tracking, endorsing and
    abstaining, DELETE for untracking, GET for everything else. *)
Theorem invoke_method (c : Call) (st : State) :
  passes_validation c = true →
  ∃ req, sent (invoke env c st).2 = sent st ++ [req]
         ∧ method req =
             match c with
             | UserTrackedAdd _ _ | ModEndorse _ _ | ModAbstain _ _ => "POST"
             | UserTrackedDelete _ _ => "DELETE"
             | _ => "GET"
             end.
Proof.
  intros Hvalid.
  destruct c; simpl in *;
    try (eexists; split; [apply dispatch_sent | reflexivity]);
    try (unfold user_tracked_add, user_tracked_delete; rewrite discard_state;
         eexists; split; [apply dispatch_sent | reflexivity]).
  unfold game_updated_list. rewrite Hvalid. simpl.
  eexists; split; [apply dispatch_sent | reflexivity].
Qed.

(** X9: no endpoint method swallows a failure.  Against a server whose
    answer has a status other than 200 and 201, every method, the two that
    drop their result included, ends in the dispatcher's exception:
    [LimitReachedError] on 429, [RequestError] with code and reason on 503
    and 504. *)
Theorem invoke_propagates_failure (st : State) (response : Response) :
  (∀ p, network env p = inl response) →
  status_code response ≠ 200 →
  status_code response ≠ 201 →
  ∀ c : Call,
    passes_validation c = true →
    ∃ e, (invoke env c st).1 = Raise e
         ∧ (status_code response = 429 → e = LimitReachedError LIMIT_MESSAGE)
         ∧ (status_code response = 503 ∨ status_code response = 504 →
            e = RequestError (status_message (status_code response) (reason response))).
Proof.
  intros Hnet H200 H201 c Hvalid.
  destruct (invoke_cases c) as [[Hbad _] | (_ & op & ep & pl & da & hd & Hrun & _)];
    [congruence|].
  destruct (dispatch_failure env op ep pl da hd st response (Hnet _) H200 H201)
    as (e & He & Hlimit & Hdown).
  exists e. split; [|split; assumption].
  rewrite Hrun. destruct (is_tracked_mutation c); [|exact He].
  unfold mbind, M_bind.
  destruct (_make_request env op ep pl da hd st) as [[a|e'] st']; simpl in *;
    congruence.
Qed.

End EveryEndpoint.

(** * What the requests carry *)

Section Encoding.

(** Quoting works byte by byte, so it goes through concatenation. *)
Lemma quote_plus_app (a b : string) :
  Wire.quote_plus (a +:+ b) = Wire.quote_plus a +:+ Wire.quote_plus b.
Proof.
  induction a as [|c a IH]; [reflexivity|].
  rewrite append_cons. simpl. by rewrite IH, string_app_assoc.
Qed.

(** A comma-joined list is quoted item by item, each comma becoming [%2C]. *)
Lemma quote_plus_join (l : list string) :
  Wire.quote_plus (PyStr.join "," l) = PyStr.join "%2C" (map Wire.quote_plus l).
Proof.
  induction l as [|x [|y rest] IH]; [reflexivity | reflexivity |].
  change (PyStr.join "," (x :: y :: rest))
    with (x +:+ "," +:+ PyStr.join "," (y :: rest)).
  change (PyStr.join "%2C" (map Wire.quote_plus (x :: y :: rest)))
    with (Wire.quote_plus x +:+ "%2C" +:+
          PyStr.join "%2C" (map Wire.quote_plus (y :: rest))).
  by rewrite !quote_plus_app, IH.
Qed.

End Encoding.

Section Carried.

Context (env : Environment).

(** Headers of the call are laid over the session's; without any, the
    session's go out as they are. *)
Lemma merge_no_headers (session : gmap string string) :
  Wire.merge_headers session ∅ = session.
Proof. unfold Wire.merge_headers. apply map_fold_empty. Qed.

Lemma merge_one_header (session : gmap string string) (name v : string) :
  Wire.merge_headers session {[ name := v ]} = Wire.ci_set name v session.
Proof. unfold Wire.merge_headers. apply map_fold_singleton. Qed.

(** What goes out under the three identity names when the session is the
    constructor's and the call gives no header, or the form content type. *)
Lemma identity_headers_on_wire (api_key : string) (form : bool) :
  let h := Wire.merge_headers (session_headers (__init__ env api_key))
             (if form
              then {[ "content-type" := "application/x-www-form-urlencoded" ]}
              else ∅) in
  Wire.ci_get h "apikey" = Some api_key
  ∧ Wire.ci_get h "user-agent" = Some (USER_AGENT env)
  ∧ Wire.ci_get h "content-type" =
      Some (if form then "application/x-www-form-urlencoded" else "application/json").
Proof.
  destruct form; simpl.
  - rewrite merge_one_header.
    unfold __init__, Wire.ci_get, Wire.ci_set. simpl.
    change (PyStr.lower "content-type") with "content-type".
    change (PyStr.lower "apikey") with "apikey".
    change (PyStr.lower "user-agent") with "user-agent".
    repeat split.
    + by rewrite !(lookup_insert_ne _ "content-type" "apikey"), lookup_insert_eq.
    + by rewrite !(lookup_insert_ne _ "content-type" "user-agent"),
        (lookup_insert_ne _ "apikey" "user-agent"), lookup_insert_eq.
    + apply lookup_insert_eq.
  - rewrite merge_no_headers.
    unfold __init__, Wire.ci_get, Wire.ci_set. simpl.
    change (PyStr.lower "content-type") with "content-type".
    change (PyStr.lower "apikey") with "apikey".
    change (PyStr.lower "user-agent") with "user-agent".
    repeat split.
    + by rewrite (lookup_insert_ne _ "content-type" "apikey"), lookup_insert_eq.
    + by rewrite (lookup_insert_ne _ "content-type" "user-agent"),
        (lookup_insert_ne _ "apikey" "user-agent"), lookup_insert_eq.
    + apply lookup_insert_eq.
Qed.

(** X10: the constructor sets [content-type], [apikey] and [user-agent] on
    the session, under whatever capitalisation they are looked up, and
    leaves every other default header of the session as it was; it sends
    nothing and starts with empty metadata. *)
Theorem init_session_headers (api_key name : string) :
  Wire.ci_get (session_headers (__init__ env api_key)) name =
    (if String.eqb (PyStr.lower name) "content-type" then Some "application/json"
     else if String.eqb (PyStr.lower name) "apikey" then Some api_key
     else if String.eqb (PyStr.lower name) "user-agent" then Some (USER_AGENT env)
     else Wire.ci_get (default_headers env) name)
  ∧ nexus_headers (__init__ env api_key) = ∅
  ∧ sent (__init__ env api_key) = [].
Proof.
  split; [|split; reflexivity].
  unfold __init__, Wire.ci_get, Wire.ci_set. simpl.
  change (PyStr.lower "content-type") with "content-type".
  change (PyStr.lower "apikey") with "apikey".
  change (PyStr.lower "user-agent") with "user-agent".
  destruct (String.eqb_spec (PyStr.lower name) "content-type") as [->|Hct];
    [apply lookup_insert_eq|].
  rewrite lookup_insert_ne by (intros E; apply Hct; rewrite <- E; reflexivity).
  destruct (String.eqb_spec (PyStr.lower name) "apikey") as [->|Hkey];
    [apply lookup_insert_eq|].
  rewrite lookup_insert_ne by (intros E; apply Hkey; rewrite <- E; reflexivity).
  destruct (String.eqb_spec (PyStr.lower name) "user-agent") as [->|Hua];
    [apply lookup_insert_eq|].
  by rewrite lookup_insert_ne by (intros E; apply Hua; rewrite <- E; reflexivity).
Qed.

(** X11: on a session set up by the constructor, every endpoint method sends
    the key it was constructed with and the library's user agent; the
    content type is the JSON one except for the two tracked-mods mutations,
    which send the form one. *)
Theorem invoke_sends_identity (api_key : string) (c : Call) (st : State) :
  session_headers st = session_headers (__init__ env api_key) →
  passes_validation c = true →
  ∃ req,
    sent (invoke env c st).2 = sent st ++ [req]
    ∧ Wire.ci_get (Wire.w_headers (Wire.prepare (session_headers st) req)) "apikey" =
        Some api_key
    ∧ Wire.ci_get (Wire.w_headers (Wire.prepare (session_headers st) req)) "user-agent" =
        Some (USER_AGENT env)
    ∧ Wire.ci_get (Wire.w_headers (Wire.prepare (session_headers st) req)) "content-type" =
        Some (if is_tracked_mutation c
              then "application/x-www-form-urlencoded"
              else "application/json").
Proof.
  intros Hsession Hvalid.
  destruct (invoke_state env c Hvalid) as (op & ep & pl & da & hd & Hst & Hhd).
  exists (issued op ep pl da hd). split; [rewrite Hst; apply dispatch_sent|].
  unfold Wire.prepare, issued. simpl. rewrite Hsession, Hhd.
  destruct (is_tracked_mutation c); simpl.
  - exact (identity_headers_on_wire api_key true).
  - exact (identity_headers_on_wire api_key false).
Qed.

End Carried.

Section Queries.

Context (env : Environment).

(** X12: [user_tracked_delete] sends one DELETE to the tracked-mods address
    with query [domain_name=<game>], form body [mod_id=<mod_id>] and the
    form content type in place of the session's, and leaves the session
    headers as they were. *)
Theorem user_tracked_delete_request (game mod_id : string) (st : State) :
  Wire.ci_get (session_headers st) "content-type" = Some "application/json" →
  ∃ req,
    sent (user_tracked_delete env game mod_id st).2 = sent st ++ [req]
    ∧ method req = "DELETE"
    ∧ url req = BASE_URL +:+ "user/tracked_mods.json"
    ∧ Wire.ci_get (Wire.w_headers (Wire.prepare (session_headers st) req))
        "content-type" = Some "application/x-www-form-urlencoded"
    ∧ Wire.w_query (Wire.prepare (session_headers st) req) =
        "domain_name=" +:+ Wire.quote_plus game
    ∧ Wire.w_body (Wire.prepare (session_headers st) req) =
        "mod_id=" +:+ Wire.quote_plus mod_id
    ∧ Wire.ci_get (session_headers (user_tracked_delete env game mod_id st).2)
        "content-type" = Some "application/json".
Proof.
  intros Hjson. unfold user_tracked_delete.
  rewrite discard_state.
  eexists. split; [apply dispatch_sent|].
  repeat split; try reflexivity.
  - apply merge_single_header.
  - by rewrite dispatch_session_headers.
Qed.

(** X13: a list (or tuple) of categories given to [mod_file_list] is the
    same call as the comma-joined string: one [category] parameter whose
    value goes out item by item with [%2C] between the items.  An empty
    list still sends the parameter, with an empty value. *)
Theorem mod_file_list_categories (game mod_id : string) (l : list string) (st : State) :
  mod_file_list env game mod_id (CatSeq l) st =
    mod_file_list env game mod_id (CatStr (PyStr.join "," l)) st
  ∧ ∃ req,
      sent (mod_file_list env game mod_id (CatSeq l) st).2 = sent st ++ [req]
      ∧ params req = [("category", PStr (PyStr.join "," l))]
      ∧ Wire.w_query (Wire.prepare (session_headers st) req) =
          "category=" +:+ PyStr.join "%2C" (map Wire.quote_plus l).
Proof.
  split; [reflexivity|].
  unfold mod_file_list.
  eexists. split; [apply dispatch_sent|]. split; [reflexivity|].
  unfold Wire.prepare, issued, Wire.urlencode. simpl.
  by rewrite quote_plus_join.
Qed.

(** X14: [mod_file_download_link] sends a query exactly when both
    [nxm_key] and [expires] are given, and then it is [key] followed by
    [expires]; one of them given alone is dropped without notice. *)
Theorem mod_file_download_link_query (game mod_id file_id : string)
    (nxm_key expires : option string) (st : State) :
  ∃ req,
    sent (mod_file_download_link env game mod_id file_id nxm_key expires st).2 =
      sent st ++ [req]
    ∧ (params req = [] ↔ nxm_key = None ∨ expires = None)
    ∧ (∀ k e, nxm_key = Some k → expires = Some e →
         params req = [("key", PStr k); ("expires", PStr e)]
         ∧ Wire.w_query (Wire.prepare (session_headers st) req) =
             "key=" +:+ Wire.quote_plus k +:+ "&expires=" +:+ Wire.quote_plus e).
Proof.
  unfold mod_file_download_link.
  eexists. split; [apply dispatch_sent|].
  destruct nxm_key as [k|], expires as [e|]; simpl; split;
    try (split; [intros H; discriminate H | intros [H | H]; discriminate H]);
    try (split; [auto | reflexivity]);
    try (intros k' e' Hk He; discriminate Hk || discriminate He).
  intros k' e' [= <-] [= <-]. split; [reflexivity|].
  unfold Wire.urlencode. simpl. by rewrite !string_app_assoc.
Qed.

(** X15: [game_list] always sends [include_unapproved], also for the
    default, and as Python's text of the boolean: [True] or [False]. *)
Theorem game_list_query (include_unapproved : bool) (st : State) :
  ∃ req,
    sent (game_list env include_unapproved st).2 = sent st ++ [req]
    ∧ method req = "GET"
    ∧ url req = BASE_URL +:+ "games.json"
    ∧ Wire.w_query (Wire.prepare (session_headers st) req) =
        "include_unapproved=" +:+ (if include_unapproved then "True" else "False").
Proof.
  unfold game_list.
  eexists. split; [apply dispatch_sent|].
  repeat split. by destruct include_unapproved.
Qed.

End Queries.

(** * The single sign-on handshake *)

Section Handshake.

Import Sso.

Context (env : Environment) (sv : Services).
Context (app_slug sso_token : string) (sso_id : option string).

(** Unfolds a run of the handshake down to the answers of the services. *)
Ltac run_sso :=
  unfold sso, call, unit_result, mbind, Script_bind, mret, Script_ret in *;
  simpl in *.

(** X16: when every collaborator plays along, the handshake connects to the
    signalling address, sends one frame, opens the browser and then waits
    for one frame, in this order; the identifier in the frame and the one
    in the confirmation address are the same, namely the caller's if one
    was given (no UUID is drawn then) and a fresh UUID otherwise; the
    session is constructed with the received frame as the key. *)
Theorem sso_handshake (key : string) :
  create_connection sv SSO_SOCKET = None →
  send sv (dumps sv (handshake (default (uuid4 sv) sso_id) sso_token)) = None →
  webbrowser_open sv (confirmation_url (default (uuid4 sv) sso_id) app_slug) = None →
  recv sv = inl key →
  sso env sv app_slug sso_token sso_id [] =
    (inl (__init__ env key),
     [Connect SSO_SOCKET] ++
     (match sso_id with None => [Uuid4] | Some _ => [] end) ++
     [Send (dumps sv (handshake (default (uuid4 sv) sso_id) sso_token));
      OpenBrowser (confirmation_url (default (uuid4 sv) sso_id) app_slug);
      Recv]).
Proof.
  intros Hconnect Hsend Hopen Hrecv. run_sso.
  rewrite Hconnect. simpl.
  destruct sso_id as [given|]; simpl in *;
    rewrite Hsend; simpl; rewrite Hopen; simpl; rewrite Hrecv; reflexivity.
Qed.





(** A session comes out of the handshake only as the constructor's, on
    the frame that was received. *)
Lemma sso_result (st : State) :
  (sso env sv app_slug sso_token sso_id []).1 = inl st →
  ∃ key, recv sv = inl key ∧ st = __init__ env key.
Proof.
  run_sso.
  destruct (create_connection sv SSO_SOCKET); simpl; [discriminate|].
  destruct sso_id as [given|]; simpl;
    (destruct (send sv _); simpl; [discriminate|]);
    (destruct (webbrowser_open sv _); simpl; [discriminate|]);
    (destruct (recv sv) as [key|]; simpl; [|discriminate]);
    intros [= <-]; by exists key.
Qed.

(** X18: the key that arrives over the socket is the key of every later
    request: on the session the handshake returns, each endpoint method
    sends the received frame as [apikey]. *)
Theorem sso_key_reaches_requests (st : State) :
  (sso env sv app_slug sso_token sso_id []).1 = inl st →
  ∃ key,
    recv sv = inl key
    ∧ ∀ c : Call,
        passes_validation c = true →
        ∃ req,
          sent (invoke env c st).2 = [req]
          ∧ Wire.ci_get (Wire.w_headers (Wire.prepare (session_headers st) req))
              "apikey" = Some key.
Proof.
  intros Hsso. destruct (sso_result st Hsso) as (key & Hrecv & ->).
  exists key. split; [exact Hrecv|]. intros c Hvalid.
  destruct (invoke_state env c Hvalid) as (op & ep & pl & da & hd & Hst & Hhd).
  exists (issued op ep pl da hd). split; [rewrite Hst; apply dispatch_sent|].
  unfold Wire.prepare, issued. simpl. rewrite Hhd.
  destruct (is_tracked_mutation c); simpl.
  - exact (proj1 (identity_headers_on_wire env key true)).
  - exact (proj1 (identity_headers_on_wire env key false)).
Qed.

End Handshake.

(** * The further theorems at fixtures *)

Section MoreWitnesses.

Import Fixture Cases.

Local Abbreviation get endpoint :=
  (_make_request env "get" endpoint None None None TEST_INSTANCE).

Lemma dispatch_returns_only_on_success_witness :
  (status_code ok = 200 ∨ status_code ok = 201) ∧ r_json ok = Some TEST_JSON.
Proof.
  apply (dispatch_returns_only_on_success env "get" "colourschemes.json"
           None None None TEST_INSTANCE ok).
  - vm_compute. reflexivity.
  - vm_compute. reflexivity.
Defined.

Lemma dispatch_other_status_undecodable_witness :
  (_make_request (answering bad_gateway) "get" "games.json" None None None
     TEST_INSTANCE).1 = Raise JSONDecodeError
  ∧ library_error JSONDecodeError = false
  ∧ decoded (_make_request (answering bad_gateway) "get" "games.json" None None None
       TEST_INSTANCE).2 = 1%nat.
Proof.
  apply (dispatch_other_status_undecodable (answering bad_gateway) "get" "games.json"
           None None None TEST_INSTANCE bad_gateway).
  - reflexivity.
  - unfold other_status. simpl. lia.
  - reflexivity.
Defined.

Lemma dispatch_other_status_not_a_mapping_witness :
  (_make_request (answering listing) "get" "games.json" None None None
     TEST_INSTANCE).1 = Raise TypeError
  ∧ library_error TypeError = false
  ∧ decoded (_make_request (answering listing) "get" "games.json" None None None
       TEST_INSTANCE).2 = 1%nat.
Proof.
  apply (dispatch_other_status_not_a_mapping (answering listing) "get" "games.json"
           None None None TEST_INSTANCE listing eq_refl
           (VList [VStr "period is invalid"])).
  - unfold other_status. simpl. lia.
  - reflexivity.
  - intros d H. discriminate H.
Defined.

Lemma dispatch_transport_failure_witness :
  (get "test_endpoint6").1 = Raise (RequestException "Connection refused")
  ∧ nexus_headers (get "test_endpoint6").2 = nexus_headers TEST_INSTANCE
  ∧ decoded (get "test_endpoint6").2 = decoded TEST_INSTANCE
  ∧ sent (get "test_endpoint6").2 =
      sent TEST_INSTANCE ++ [issued "get" "test_endpoint6" None None None].
Proof.
  apply (dispatch_transport_failure env "get" "test_endpoint6" None None None
           TEST_INSTANCE (RequestException "Connection refused")).
  vm_compute. reflexivity.
Defined.

Lemma dispatch_metadata_replaced_witness :
  nexus_headers
    (_make_request metered_env "get" "games.json" None None None
       (_make_request metered_env "get" "colourschemes.json" None None None
          TEST_INSTANCE).2).2 !! "X-First" = None.
Proof.
  apply (dispatch_metadata_replaced metered_env "get" "colourschemes.json"
           None None None TEST_INSTANCE "get" "games.json" None None None
           exhausted "X-First").
  - vm_compute. reflexivity.
  - vm_compute. reflexivity.
Defined.

Lemma invoke_sends_one_request_witness :
  sent (invoke env (GameUpdatedList "game_id" "2d") TEST_INSTANCE).2 = []
  ∧ ∃ req, sent (invoke env (GameUpdatedList "game_id" "1w") TEST_INSTANCE).2 = [req]
           ∧ PyStr.startswith BASE_URL (url req) = true
           ∧ timeout req = 30.
Proof.
  split.
  - exact (invoke_sends_one_request env (GameUpdatedList "game_id" "2d") TEST_INSTANCE).
  - exact (invoke_sends_one_request env (GameUpdatedList "game_id" "1w") TEST_INSTANCE).
Defined.

Lemma invoke_method_witness :
  ∃ req, sent (invoke env (ModEndorse "game_id" "mod_id") TEST_INSTANCE).2 = [req]
         ∧ method req = "POST".
Proof.
  apply (invoke_method env (ModEndorse "game_id" "mod_id") TEST_INSTANCE).
  reflexivity.
Defined.

Lemma invoke_propagates_failure_witness :
  ∃ e, (invoke (answering too_many) (UserTrackedAdd "game" "mod_id") TEST_INSTANCE).1 =
         Raise e
       ∧ (status_code too_many = 429 → e = LimitReachedError LIMIT_MESSAGE)
       ∧ (status_code too_many = 503 ∨ status_code too_many = 504 →
          e = RequestError (status_message (status_code too_many) (reason too_many))).
Proof.
  apply (invoke_propagates_failure (answering too_many) TEST_INSTANCE too_many).
  - intros p. reflexivity.
  - simpl. lia.
  - simpl. lia.
  - reflexivity.
Defined.

Lemma invoke_sends_identity_witness :
  ∃ req,
    sent (invoke env UserDetails TEST_INSTANCE).2 = sent TEST_INSTANCE ++ [req]
    ∧ Wire.ci_get (Wire.w_headers (Wire.prepare (session_headers TEST_INSTANCE) req))
        "apikey" = Some "test-key"
    ∧ Wire.ci_get (Wire.w_headers (Wire.prepare (session_headers TEST_INSTANCE) req))
        "user-agent" = Some (USER_AGENT env)
    ∧ Wire.ci_get (Wire.w_headers (Wire.prepare (session_headers TEST_INSTANCE) req))
        "content-type" = Some "application/json".
Proof.
  apply (invoke_sends_identity env "test-key" UserDetails TEST_INSTANCE).
  - reflexivity.
  - reflexivity.
Defined.

Lemma user_tracked_delete_request_witness :
  ∃ req,
    sent (user_tracked_delete env "game" "mod_id" TEST_INSTANCE).2 = [req]
    ∧ method req = "DELETE"
    ∧ url req = "https://api.nexusmods.com/v1/user/tracked_mods.json"
    ∧ Wire.ci_get (Wire.w_headers (Wire.prepare (session_headers TEST_INSTANCE) req))
        "content-type" = Some "application/x-www-form-urlencoded"
    ∧ Wire.w_query (Wire.prepare (session_headers TEST_INSTANCE) req) =
        "domain_name=game"
    ∧ Wire.w_body (Wire.prepare (session_headers TEST_INSTANCE) req) = "mod_id=mod_id"
    ∧ Wire.ci_get (session_headers (user_tracked_delete env "game" "mod_id"
                                      TEST_INSTANCE).2)
        "content-type" = Some "application/json".
Proof.
  apply (user_tracked_delete_request env "game" "mod_id" TEST_INSTANCE).
  vm_compute. reflexivity.
Defined.

Lemma mod_file_download_link_query_witness :
  ∃ req,
    sent (mod_file_download_link env "game_id" "mod_id" "file_id"
            (Some "key") (Some "expires") TEST_INSTANCE).2 = [req]
    ∧ params req = [("key", PStr "key"); ("expires", PStr "expires")]
    ∧ Wire.w_query (Wire.prepare (session_headers TEST_INSTANCE) req) =
        "key=key&expires=expires".
Proof.
  destruct (mod_file_download_link_query env "game_id" "mod_id" "file_id"
              (Some "key") (Some "expires") TEST_INSTANCE)
    as (req & Hsent & _ & Hboth).
  exists req. split; [exact Hsent|].
  apply (Hboth "key" "expires"); reflexivity.
Defined.

Lemma sso_handshake_witness :
  Sso.sso env Sso.friendly "my-app" "token" None [] =
    (inl (__init__ env "key-from-sso"),
     [Sso.Connect "wss://sso.nexusmods.com";
      Sso.Uuid4;
      Sso.Send (Sso.dumps Sso.friendly
                  (Sso.handshake "0b1e9c3a-6f0d-4c55-9a57-3d2f8f0c7e11" "token"));
      Sso.OpenBrowser
        "https://www.nexusmods.com/sso?id=0b1e9c3a-6f0d-4c55-9a57-3d2f8f0c7e11&application=my-app";
      Sso.Recv]).
Proof.
  apply (sso_handshake env Sso.friendly "my-app" "token" None "key-from-sso");
    reflexivity.
Defined.


Lemma sso_key_reaches_requests_witness :
  ∃ key,
    Sso.recv Sso.friendly = inl key
    ∧ ∀ c : Call,
        passes_validation c = true →
        ∃ req,
          sent (invoke env c (__init__ env "key-from-sso")).2 = [req]
          ∧ Wire.ci_get
              (Wire.w_headers
                 (Wire.prepare (session_headers (__init__ env "key-from-sso")) req))
              "apikey" = Some key.
Proof.
  apply (sso_key_reaches_requests env Sso.friendly "my-app" "token" (Some "my-id")
           (__init__ env "key-from-sso")).
  reflexivity.
Defined.

End MoreWitnesses.
